(** * rustc-perf compare page: tab selection, URL state and tab summaries

    A shallow embedding of the compare page controller
    (the [<script setup>] block of the compare page), of the tab strip
    [components/tabs.vue] and of [summary/tab-summary-table.vue].

    JavaScript numbers are IEEE-754 binary64 values ([PrimFloat.float]),
    URL parameter dictionaries are finite maps from strings to strings,
    virtual DOM nodes are a small inductive type, and the asynchronous setup
    of the page is a transition system over the order in which its two
    fetches resolve. *)

From Stdlib Require Import ZArith String Ascii List Floats DecimalString Lia.
From stdpp Require Import base option gmap strings list.

Open Scope string_scope.

#[local] Set Warnings "-register-all".
#[local] Set Default Proof Using "Type".

(* ===================================================================== *)
(** ** The JavaScript runtime the page relies on *)
(* ===================================================================== *)

Module Js.

(** Runtime values that reach the tab state.  A TypeScript string enum
    member is its string at run time; [JsIntrinsic] stands for an object
    or function of the realm, identified by its well-known name. *)
Inductive value : Type :=
| JsUndefined
| JsNull
| JsString (s : string)
| JsIntrinsic (name : string).

#[global] Instance value_eq_dec : EqDecision value.
Proof. solve_decision. Defined.

(** [a ?? b] *)
Definition nullish (a b : value) : value :=
  match a with
  | JsUndefined | JsNull => b
  | _ => a
  end.

(** [a === b] on the values above: strings by content, intrinsics by
    identity. *)
Definition strict_eq (a b : value) : bool := bool_decide (a = b).

(** Property names every ordinary object inherits from
    [Object.prototype]. *)
Definition Object_prototype_keys : list string :=
  [ "constructor"; "hasOwnProperty"; "isPrototypeOf";
    "propertyIsEnumerable"; "toLocaleString"; "toString"; "valueOf";
    "__proto__"; "__defineGetter__"; "__defineSetter__";
    "__lookupGetter__"; "__lookupSetter__" ].

Definition Object_prototype_get (k : string) : value :=
  if bool_decide (k ∈ Object_prototype_keys)
  then JsIntrinsic ("Object.prototype." ++ k)
  else JsUndefined.

(** [o[k]] on an object literal [o] whose own properties are [own]: the
    own property when there is one, otherwise the lookup continues in
    [Object.prototype]. *)
Definition Get (own : gmap string value) (k : string) : value :=
  match own !! k with
  | Some v => v
  | None => Object_prototype_get k
  end.

(** A thrown [TypeError] (reading a property of [null]) or a value. *)
Inductive completion (A : Type) : Type :=
| Normal (a : A)
| TypeError (reading : string).
Arguments Normal {A} a.
Arguments TypeError {A} reading.

#[global] Instance completion_ret : MRet completion := @Normal.
#[global] Instance completion_bind : MBind completion :=
  fun A B k c =>
    match c with
    | Normal a => k a
    | TypeError p => TypeError p
    end.

(** [r.value.p] for a ref [r] that may hold [null]. *)
Definition deref {A} (r : option A) (reading : string) : completion A :=
  match r with
  | Some a => Normal a
  | None => TypeError reading
  end.

End Js.
Export Js.

(* ===================================================================== *)
(** ** Numbers *)
(* ===================================================================== *)

Definition number := float.

(** [x > y] on numbers. *)
Definition num_gt (x y : number) : bool := PrimFloat.ltb y x.

Section NumberFormatting.

(** [Number::toString], the engine's shortest round-trip rendering;
    [toFixed] reaches it only for non-finite values and for magnitudes of
    at least 10^21. *)
Variable Number_toString : number -> string.

Fixpoint zeros (n : nat) : string :=
  match n with
  | O => ""
  | S n' => String "0" (zeros n')
  end.

(** The integer [n] for which [n / 10^f - m * 2^e] is closest to zero, the
    larger one when two are equally close. *)
Definition nearest_scaled (m : positive) (e : Z) (f : nat) : N :=
  let p := (Z.pos m * 10 ^ Z.of_nat f)%Z in
  if (0 <=? e)%Z then Z.to_N (p * 2 ^ e)
  else Z.to_N ((2 * p + 2 ^ (- e)) / 2 ^ (- e + 1)).

(** The decimal digits of [n], padded on the left to [f + 1] digits, with
    a point before the last [f] digits. *)
Definition fixed_digits (n : N) (f : nat) : string :=
  let m := NilZero.string_of_uint (N.to_uint n) in
  let k := String.length m in
  let m := if (k <=? f)%nat then zeros (f + 1 - k) ++ m else m in
  let k := String.length m in
  match f with
  | O => m
  | S _ => substring 0 (k - f) m ++ "." ++ substring (k - f) f m
  end.

(** [x.toFixed(f)] for [0 <= f <= 100]. *)
Definition toFixed (x : number) (f : nat) : string :=
  match Prim2SF x with
  | S754_nan | S754_infinity _ => Number_toString x
  | S754_zero _ => fixed_digits 0 f
  | S754_finite s m e =>
      (if s then "-" else "") ++
      (if PrimFloat.leb 1e21 (PrimFloat.abs x)
       then Number_toString (PrimFloat.abs x)
       else fixed_digits (nearest_scaled m e f) f)
  end.

End NumberFormatting.

(* ===================================================================== *)
(** ** Types of [./types] and [./data] *)
(* ===================================================================== *)

(** Modelled from the spec: the string enum [Tab] of [./types], which is
    not among the sources.  Its members are the four URL tokens. *)
Inductive Tab : Type := CompileTime | Runtime | Bootstrap | ArtifactSize.

#[global] Instance Tab_eq_dec : EqDecision Tab.
Proof. solve_decision. Defined.

Definition Tab_token (t : Tab) : string :=
  match t with
  | CompileTime => "compile"
  | Runtime => "runtime"
  | Bootstrap => "bootstrap"
  | ArtifactSize => "artifact-size"
  end.

(** The run-time value of an enum member. *)
Definition Tab_value (t : Tab) : value := JsString (Tab_token t).

(** What [ref(v)] of Vue holds: a plain object is wrapped in its reactive
    proxy (one proxy per object), anything else is stored as it is.  Of the
    values above only [Object.prototype] itself, which an object literal
    yields under the name [__proto__], is a plain object; the other
    inherited members are functions. *)
Definition Vue_ref (v : value) : value :=
  match v with
  | JsIntrinsic name =>
      if bool_decide (name = "Object.prototype.__proto__")
      then JsIntrinsic "reactive(Object.prototype)"
      else v
  | _ => v
  end.

(** Modelled from the spec: an artifact descriptor of [./types].  The
    component sizes are the own properties of the [component_sizes] object in
    enumeration order (names are distinct). *)
Record ArtifactDescription : Type := {
  bootstrap_total : number;
  component_sizes : list (string * number);
}.

(** [Object.keys(o)] and [Object.values(o)]. *)
Definition Object_keys {A} (o : list (string * A)) : list string := o.*1.
Definition Object_values {A} (o : list (string * A)) : list A := o.*2.

(** [xs.reduce((a, b) => a + b, 0)] *)
Definition reduce_sum (xs : list number) : number :=
  fold_left (fun a b => PrimFloat.add a b) xs 0%float.

(** The sum of a sequence of numbers, as a relation: nothing adds up to
    zero, and one more number adds to the sum of those before it. *)
Inductive sums_to : list number -> number -> Prop :=
| sums_to_nil : sums_to [] 0%float
| sums_to_snoc (xs : list number) (x s : number) :
    sums_to xs s -> sums_to (xs ++ [ x ])%list (s + x)%float.

(** Modelled from the spec: [Summary] and [SummaryGroup] of [./data]. *)
Record Summary : Type := {
  count : number;
  range : list number;
  average : number;
}.

Record SummaryGroup : Type := { all : Summary }.

(* ===================================================================== *)
(** ** Virtual DOM *)
(* ===================================================================== *)

Inductive VNode : Type :=
| VText (s : string)
| VFalse
| VElem (tag : string) (class : option string) (children : list VNode)
| VTabSummaryTable (summary : option SummaryGroup)
| VSummaryRange (range : list number)
| VSummaryPercentValue (class : string) (value : number).

(** The elements among the children of a node. *)
Definition is_element (n : VNode) : bool :=
  match n with
  | VElem _ _ _ => true
  | _ => false
  end.

Definition children_of (n : VNode) : list VNode :=
  match n with
  | VElem _ _ kids => kids
  | _ => []
  end.

(** The text a tree of plain elements shows: a [false] child shows
    nothing. *)
Fixpoint text_content (n : VNode) : string :=
  match n with
  | VText s => s
  | VElem _ _ kids =>
      (fix go (l : list VNode) : string :=
         match l with
         | [] => ""
         | k :: l' => text_content k ++ go l'
         end) kids
  | _ => ""
  end.

(* ===================================================================== *)
(** ** [summary/tab-summary-table.vue] *)
(* ===================================================================== *)

Module TabSummaryTable.
Section Render.

(** [percentClass] of [../shared]. *)
Variable percentClass : number -> string.

Definition table_view (summary : SummaryGroup) : VNode :=
  VElem "div" None
    [ VElem "div" (Some "table-wrapper")
        [ VElem "table" None
            [ VElem "thead" None
                [ VElem "tr" None
                    [ VElem "th" None [ VText "Range" ];
                      VElem "th" None [ VText "Mean" ] ] ];
              VElem "thead" None
                [ VElem "tr" None
                    [ VElem "td" None
                        [ VSummaryRange (range (all summary)) ];
                      VElem "td" None
                        [ VSummaryPercentValue
                            (percentClass (average (all summary)))
                            (average (all summary)) ] ] ] ] ] ].

Definition empty_view : VNode :=
  VElem "div" None [ VElem "span" None [ VText "No results" ] ].

(** The template: [v-if="summary.all.count > 0"], else the message. *)
Definition render (summary : SummaryGroup) : VNode :=
  if num_gt (count (all summary)) 0%float then table_view summary else empty_view.

End Render.
End TabSummaryTable.

(* ===================================================================== *)
(** ** [components/tabs.vue] *)
(* ===================================================================== *)

Record TabDescriptor : Type := {
  tooltip : string;
  title : string;
  selected : bool;
  id : Tab;
  summary : VNode;
  isVisible : bool;
}.

Module Tabs.

Record Props : Type := {
  initialTab : option value;
  tabs : list TabDescriptor;
}.

Record State : Type := { activeTab : value }.

Inductive emitted : Type := EmitChangeTab (tab : Tab).

(** [ref(props.initialTab)], with the default of [withDefaults]. *)
Definition setup (props : Props) : State :=
  {| activeTab :=
       Vue_ref (default (Tab_value CompileTime) (initialTab props)) |}.

Definition changeTab (tab : Tab) (st : State) : State * list emitted :=
  ({| activeTab := Tab_value tab |}, [ EmitChangeTab tab ]).

Definition activeTabs (props : Props) : list TabDescriptor :=
  List.filter isVisible (tabs props).

End Tabs.

(* ===================================================================== *)
(** ** The compare page: URL parameters *)
(* ===================================================================== *)

(** A call of [changeUrl] of [utils/navigation], with its argument. *)
Inductive effect : Type := ChangeUrl (params : gmap string string).

(** [urlParams["tab"]] is an own-property read: [Object.prototype] has no
    member called [tab]. *)
Definition loadTabFromUrl (urlParams : gmap string string) : value :=
  let tab := default "" (urlParams !! "tab") in
  let tabs : gmap string value :=
    {[ "compile" := Tab_value CompileTime;
       "runtime" := Tab_value Runtime;
       "bootstrap" := Tab_value Bootstrap;
       "artifact-size" := Tab_value ArtifactSize ]} in
  nullish (Get tabs tab) JsNull.

(** The object is updated in place and handed to [changeUrl]: the result
    is the updated object and the call made. *)
Definition storeTabToUrl (urlParams : gmap string string) (tab : Tab)
  : gmap string string * list effect :=
  let urlParams := <["tab" := Tab_token tab]> urlParams in
  (urlParams, [ ChangeUrl urlParams ]).



(** Mounting [<TabSummaryTable summary={s} />] with what a summary ref
    holds: the template reads [summary.all], which throws on [null]. *)
Definition mount_TabSummaryTable (percentClass : number -> string)
    (s : option SummaryGroup) : completion VNode :=
  summary ← deref s "all";
  mret (TabSummaryTable.render percentClass summary).

(** Mounting the summary of a tab descriptor. *)
Definition mount_summary (percentClass : number -> string) (n : VNode)
  : completion VNode :=
  match n with
  | VTabSummaryTable s => mount_TabSummaryTable percentClass s
  | _ => mret n
  end.

(** An element or component under [v-if]. *)
Definition v_if {A} (condition : bool) (x : A) : list A :=
  if condition then [ x ] else [].

(* ===================================================================== *)
(** ** The compare page: state, tab selection and tab descriptors *)
(* ===================================================================== *)

Section ComparePage.

(** Record types of [./types] and [../../api] the page only passes on. *)
Context {CompileComparison RuntimeComparison BenchmarkInfo : Type}.

(** Modelled from the spec: [CompareResponse] of [./types]. *)
Record CompareResponse : Type := {
  a : ArtifactDescription;
  b : ArtifactDescription;
  compile_comparisons : list CompileComparison;
  runtime_comparisons : list RuntimeComparison;
}.

(** [Number::toString] of the engine, and [diffClass], [formatSize] and
    [formatPercentChange] of [./shared]. *)
Variable Number_toString : number -> string.
Variable diffClass : number -> string.
Variable formatSize : number -> string.
Variable formatPercentChange : number -> number -> string.

(** The two summary pipelines of [loadCompareData]:
    [computeSummary(filterNonRelevant(filter, compute...(filter, ...)))]
    with the compile and the runtime filter. *)
Variable compileSummaryOf : CompareResponse -> SummaryGroup.
Variable runtimeSummaryOf : CompareResponse -> SummaryGroup.

(** The refs of the page: [tab], [data] and the two summaries. *)
Record PageState : Type := {
  tab : value;
  data : option CompareResponse;
  compileSummary : option SummaryGroup;
  runtimeSummary : option SummaryGroup;
}.

Definition artifactSizeAvailable (st : PageState) : bool :=
  match data st with
  | None => false
  | Some d =>
      (0 <? length (Object_keys (component_sizes (a d))))%nat
      || (0 <? length (Object_keys (component_sizes (b d))))%nat
  end.

Definition activeTab (st : PageState) : value :=
  if strict_eq (tab st) (Tab_value ArtifactSize)
     && negb (artifactSizeAvailable st)
  then Tab_value CompileTime
  else tab st.

(** [changeTab]; [current] is what [getUrlParams()] returns at the
    call. *)
Definition changeTab (current : gmap string string) (newTab : Tab)
    (st : PageState) : PageState * list effect :=
  let st' := {| tab := Tab_value newTab;
                data := data st;
                compileSummary := compileSummary st;
                runtimeSummary := runtimeSummary st |} in
  (st', (storeTabToUrl current newTab).2).

Definition formatBootstrap (value : number) : string :=
  if num_gt value 0.0%float
  then toFixed Number_toString (value / 10e8)%float 3
  else "???".

Definition formatArtifactSize (size : number) : string :=
  if PrimFloat.eqb size 0%float then "???" else formatSize size.

Definition bootstrapA (st : PageState) : completion number :=
  d ← deref (data st) "a"; mret (bootstrap_total (a d)).

Definition bootstrapB (st : PageState) : completion number :=
  d ← deref (data st) "b"; mret (bootstrap_total (b d)).

Definition bootstrapValid (bA bB : number) : bool :=
  num_gt bA 0.0%float && num_gt bB 0.0%float.

Definition totalSizeA (st : PageState) : completion number :=
  d ← deref (data st) "a";
  mret (reduce_sum (Object_values (component_sizes (a d)))).

Definition totalSizeB (st : PageState) : completion number :=
  d ← deref (data st) "b";
  mret (reduce_sum (Object_values (component_sizes (b d)))).

Definition sizesAvailable (tA tB : number) : bool :=
  num_gt tA 0%float || num_gt tB 0%float.

Definition bothSizesAvailable (tA tB : number) : bool :=
  num_gt tA 0%float && num_gt tB 0%float.

Definition bootstrap_summary (bA bB : number) : VNode :=
  VElem "div" None
    [ VText (formatBootstrap bA); VText " "; VText "->"; VText " ";
      VText (formatBootstrap bB);
      if bootstrapValid bA bB
      then VElem "div" (Some (diffClass (bB - bA)%float))
             [ VText (toFixed Number_toString ((bB - bA) / 10e8)%float 1);
               VText "s (";
               VText (toFixed Number_toString
                        (((bB - bA) / bA) * 100)%float 3);
               VText "%)" ]
      else VFalse ].

Definition artifact_size_summary (tA tB : number) : VNode :=
  VElem "div" None
    [ VText (formatArtifactSize tA); VText " "; VText "->"; VText " ";
      VText (formatArtifactSize tB);
      if bothSizesAvailable tA tB
      then VElem "div" (Some (diffClass (tB - tA)%float))
             [ VText (if PrimFloat.ltb tB tA then "-" else "");
               VText (formatSize (PrimFloat.abs (tB - tA)%float));
               VText " (";
               VText (formatPercentChange tA tB);
               VText ")" ]
      else VFalse ].

(** The rest of the script after [await loadBenchmarkInfo()]: the
    constants from [bootstrapA] to [tabs], evaluated once, in order. *)
Definition tabs (st : PageState) : completion (list TabDescriptor) :=
  bA ← bootstrapA st;
  bB ← bootstrapB st;
  tA ← totalSizeA st;
  tB ← totalSizeB st;
  mret
    [ {| tooltip := "Compilation time benchmarks: measure how long does it take to compile various crates using the compared rustc.";
         title := "Compile-time";
         selected := strict_eq (activeTab st) (Tab_value CompileTime);
         id := CompileTime;
         summary := VTabSummaryTable (compileSummary st);
         isVisible := true |};
      {| tooltip := "Runtime benchmarks: measure how long does it take to execute (i.e. how fast are) programs compiled by the compared rustc.";
         title := "Runtime";
         selected := strict_eq (activeTab st) (Tab_value Runtime);
         id := Runtime;
         summary := VTabSummaryTable (runtimeSummary st);
         isVisible := true |};
      {| tooltip := "Bootstrap duration: measures how long does it take to compile rustc by itself.";
         title := "Bootstrap";
         selected := strict_eq (activeTab st) (Tab_value Bootstrap);
         id := Bootstrap;
         summary := bootstrap_summary bA bB;
         isVisible := true |};
      {| tooltip := "Artifact size: sizes of individual components of the two artifacts.";
         title := "Artifact size";
         selected := strict_eq (activeTab st) (Tab_value ArtifactSize);
         id := ArtifactSize;
         summary := artifact_size_summary tA tB;
         isVisible := sizesAvailable tA tB |} ].

(** *** Setup and its two fetches *)

(** The constant [initialTab] of the script. *)
Definition initialTab_of (urlParams : gmap string string) : value :=
  nullish (loadTabFromUrl urlParams) (Tab_value CompileTime).

(** The synchronous part of the script, up to
    [await loadBenchmarkInfo()]: both fetches are pending. *)
Definition setup (urlParams : gmap string string) : PageState :=
  {| tab := Vue_ref (initialTab_of urlParams);
     data := None;
     compileSummary := None;
     runtimeSummary := None |}.

(** [loadCompareData] after its [await]. *)
Definition loadCompareData_resumed (response : CompareResponse)
    (st : PageState) : PageState :=
  {| tab := tab st;
     data := Some response;
     compileSummary := Some (compileSummaryOf response);
     runtimeSummary := Some (runtimeSummaryOf response) |}.

(** A fetch resolving. *)
Inductive arrival : Type :=
| CompareDataArrived (response : CompareResponse)
| BenchmarkInfoArrived (info : BenchmarkInfo).

Record Page : Type := {
  initialTab : value;
  state : PageState;
  info : option BenchmarkInfo;
  tab_descriptors : option (list TabDescriptor);
}.

Definition resume (p : Page) (ev : arrival) : completion Page :=
  match ev with
  | CompareDataArrived response =>
      mret {| initialTab := initialTab p;
              state := loadCompareData_resumed response (state p);
              info := info p;
              tab_descriptors := tab_descriptors p |}
  | BenchmarkInfoArrived i =>
      ts ← tabs (state p);
      mret {| initialTab := initialTab p;
              state := state p;
              info := Some i;
              tab_descriptors := Some ts |}
  end.

Fixpoint resume_all (p : Page) (evs : list arrival) : completion Page :=
  match evs with
  | [] => mret p
  | ev :: evs' => p' ← resume p ev; resume_all p' evs'
  end.

(** The page after the fetches resolved in the order [evs]. *)
Definition run (urlParams : gmap string string) (evs : list arrival)
  : completion Page :=
  resume_all {| initialTab := initialTab_of urlParams;
                state := setup urlParams;
                info := None;
                tab_descriptors := None |} evs.

(** The template: the tab strip is mounted under [v-if="data !== null"]
    with the descriptors built by the script; it shows [activeTabs]. *)
Definition shown_tabs (p : Page) : list Tab :=
  match data (state p), tab_descriptors p with
  | Some _, Some ts =>
      id <$> Tabs.activeTabs {| Tabs.initialTab := Some (initialTab p);
                                Tabs.tabs := ts |}
  | _, _ => []
  end.

(** *** The template below the tab strip *)




(** *** A click on a tab of the strip *)

(** The page's [@change-tab="changeTab"] listener run on what the strip
    emitted; [current] is what [getUrlParams()] returns. *)
Fixpoint on_emitted (current : gmap string string)
    (es : list Tabs.emitted) (st : PageState) : PageState * list effect :=
  match es with
  | [] => (st, [])
  | Tabs.EmitChangeTab t :: es' =>
      let '(st', effects) := changeTab current t st in
      let '(st'', effects') := on_emitted current es' st' in
      (st'', (effects ++ effects')%list)
  end.

(** [@click="changeTab(tab.id)"] on a tab of the strip: the strip updates
    its own selection and emits, and the page's listener runs. *)
Definition click (t : Tab) (current : gmap string string)
    (strip : Tabs.State) (st : PageState)
  : Tabs.State * PageState * list effect :=
  let '(strip', es) := Tabs.changeTab t strip in
  let '(st', effects) := on_emitted current es st in
  (strip', st', effects).

(** A click on a tab of the strip, on the page as a whole: the script
    evaluated the constant [tabs] once, and neither [changeTab] evaluates
    it again, so the strip keeps the descriptors it was given. *)
Definition Page_click (t : Tab) (current : gmap string string)
    (strip : Tabs.State) (p : Page) : Tabs.State * Page * list effect :=
  let '(strip', st', effects) := click t current strip (state p) in
  (strip',
   {| initialTab := initialTab p;
      state := st';
      info := info p;
      tab_descriptors := tab_descriptors p |},
   effects).

(** *** What holds of the page however the fetches resolve *)

(** The page after any number of resolved fetches: the constant
    [initialTab] is the value read from the URL and the stored tab is the
    ref made of it, the summaries are those of the loaded data, and
    descriptors exist only with data, each with a summary that mounts. *)
Definition settled (urlParams : gmap string string) (p : Page) : Prop :=
  initialTab p = nullish (loadTabFromUrl urlParams) (Tab_value CompileTime)
  /\ tab (state p) = Vue_ref (initialTab p)
  /\ match data (state p) with
     | Some response =>
         compileSummary (state p) = Some (compileSummaryOf response)
         /\ runtimeSummary (state p) = Some (runtimeSummaryOf response)
     | None =>
         compileSummary (state p) = None
         /\ runtimeSummary (state p) = None
         /\ tab_descriptors p = None
     end
  /\ (forall ts, tab_descriptors p = Some ts ->
        length ts = 4
        /\ forall percentClass t, t ∈ ts ->
             exists n, mount_summary percentClass (summary t) = Normal n).

(** *** Sample inputs *)

(** Stand-ins for the helpers of [./shared] and for the summary
    pipelines, for running the page on the samples below. *)
Definition sample_text : number -> string := fun _ => "x".
Definition sample_change : number -> number -> string := fun _ _ => "x".
Definition sample_summary : SummaryGroup :=
  {| all := {| count := 12%float;
               range := [ (-2)%float; 3%float ];
               average := 1%float |} |}.

(** A response whose artifact [a] lists one component of size zero and
    whose artifact [b] lists none. *)
Definition zero_size_response : CompareResponse :=
  {| a := {| bootstrap_total := 0%float;
             component_sizes := [ ("rustc", 0%float) ] |};
     b := {| bootstrap_total := 0%float; component_sizes := [] |};
     compile_comparisons := [];
     runtime_comparisons := [] |}.

Definition sized_response : CompareResponse :=
  {| a := {| bootstrap_total := 3000000000%float;
             component_sizes := [ ("rustc", 1024%float) ] |};
     b := {| bootstrap_total := 4500000000%float;
             component_sizes := [ ("rustc", 2048%float) ] |};
     compile_comparisons := [];
     runtime_comparisons := [] |}.

(** Artifact [a] lists a component of size zero before one of 2048
    bytes; artifact [b] lists none. *)
Definition two_component_response : CompareResponse :=
  {| a := {| bootstrap_total := 0%float;
             component_sizes := [ ("rustc", 0%float);
                                  ("cargo", 2048%float) ] |};
     b := {| bootstrap_total := 0%float; component_sizes := [] |};
     compile_comparisons := [];
     runtime_comparisons := [] |}.

Definition loaded (response : CompareResponse) (t : Tab) : PageState :=
  loadCompareData_resumed response (setup {[ "tab" := Tab_token t ]}).


(* =================================================================== *)
(** ** Facts about numbers and number formatting *)
(* =================================================================== *)

Lemma Prim2SF_zero : Prim2SF 0%float = S754_zero false.
Proof. reflexivity. Qed.

(** A number that is at most zero is not greater than zero. *)
Lemma gt_zero_of_le (v : number) :
  PrimFloat.leb v 0%float = true -> num_gt v 0%float = false.
Proof.
  unfold num_gt. rewrite leb_spec, ltb_spec, Prim2SF_zero.
  destruct (Prim2SF v) as [s|s| |s m e]; try destruct s; cbn; congruence.
Qed.

(** Both zeros compare equal to zero and are not greater than it. *)
Lemma gt_zero_of_eq (v : number) :
  PrimFloat.eqb v 0%float = true -> num_gt v 0%float = false.
Proof.
  unfold num_gt. rewrite FloatAxioms.eqb_spec, ltb_spec, Prim2SF_zero.
  destruct (Prim2SF v) as [s|s| |s m e]; try destruct s; cbn; congruence.
Qed.

Lemma SFltb_not_SFleb (x y : spec_float) :
  SFltb x y = true -> SFleb y x = false.
Proof.
  unfold SFltb, SFleb.
  destruct x as [sx|sx| |sx mx ex], y as [sy|sy| |sy my ey];
    cbn; try congruence;
    try (destruct sx; cbn; congruence);
    try (destruct sy; cbn; congruence);
    try (destruct sx, sy; cbn; congruence).
  destruct sx, sy; cbn; try congruence.
  - rewrite (Z.compare_antisym ex ey).
    destruct (ex ?= ey)%Z; cbn; try congruence.
    pose proof (Pos.compare_cont_antisym mx my Eq) as H. cbn in H.
    rewrite <- H.
    destruct (Pos.compare_cont Eq mx my); cbn; congruence.
  - rewrite (Z.compare_antisym ex ey).
    destruct (ex ?= ey)%Z; cbn; try congruence.
    pose proof (Pos.compare_cont_antisym mx my Eq) as H. cbn in H.
    rewrite <- H.
    destruct (Pos.compare_cont Eq mx my); cbn; congruence.
Qed.

(** [nearest_scaled m e f] is the integer closest to [m * 2^e * 10^f], the
    larger of the two when it lies half-way: exact for [0 <= e], and
    otherwise within half a unit of the scaled value, written over the
    denominator [2^(-e)]. *)
Lemma nearest_scaled_closest (m : positive) (e : Z) (f : nat) :
  let p := (Z.pos m * 10 ^ Z.of_nat f)%Z in
  let n := Z.of_N (nearest_scaled m e f) in
  ((0 <= e)%Z -> n = (p * 2 ^ e)%Z)
  /\ ((e < 0)%Z ->
      (2 * p - 2 ^ (- e) < 2 * 2 ^ (- e) * n <= 2 * p + 2 ^ (- e))%Z).
Proof.
  intros p n. subst n. unfold nearest_scaled. fold p.
  assert (Hp : (0 < p)%Z) by (subst p; apply Z.mul_pos_pos; [lia|]; apply Z.pow_pos_nonneg; lia).
  split; intros He.
  - destruct (Z.leb_spec 0 e); [|lia].
    rewrite Z2N.id; [reflexivity|].
    apply Z.mul_nonneg_nonneg; [lia|]. apply Z.pow_nonneg. lia.
  - destruct (Z.leb_spec 0 e); [lia|].
    set (d := (2 ^ (- e))%Z).
    assert (Hd : (0 < d)%Z) by (subst d; apply Z.pow_pos_nonneg; lia).
    replace (2 ^ (- e + 1))%Z with (2 * d)%Z
      by (subst d; rewrite Z.pow_add_r by lia; lia).
    rewrite Z2N.id by (apply Z.div_pos; lia).
    pose proof (Z.mul_div_le (2 * p + d) (2 * d) ltac:(lia)).
    pose proof (Z.mul_succ_div_gt (2 * p + d) (2 * d) ltac:(lia)).
    lia.
Qed.

Lemma length_zeros (n : nat) : String.length (zeros n) = n.
Proof. induction n as [|n IH]; [reflexivity|]. cbn [zeros String.length]. now rewrite IH. Qed.

Lemma length_append (s1 s2 : string) :
  String.length (s1 ++ s2) = String.length s1 + String.length s2.
Proof.
  induction s1 as [|c s1 IH]; [reflexivity|].
  change (String c s1 ++ s2) with (String c (s1 ++ s2)).
  cbn [String.length]. now rewrite IH.
Qed.

Lemma length_substring (s : string) :
  forall n l, n + l <= String.length s ->
              String.length (substring n l s) = l.
Proof.
  induction s as [|c s IH]; intros n l H; cbn in H.
  - assert (n = 0) by lia. assert (l = 0) by lia. subst. reflexivity.
  - destruct n as [|n]; cbn.
    + destruct l as [|l]; cbn; [reflexivity|].
      f_equal. apply IH. lia.
    + apply IH. lia.
Qed.

(** With at least one fraction digit, [fixed_digits] is a non-empty
    integer part, a point and exactly [f] further characters. *)
Lemma fixed_digits_shape (n : N) (f : nat) :
  exists ip fp,
    fixed_digits n (S f) = ip ++ "." ++ fp
    /\ 0 < String.length ip /\ String.length fp = S f.
Proof.
  unfold fixed_digits.
  set (m := NilZero.string_of_uint (N.to_uint n)).
  set (m' := if (String.length m <=? S f)%nat
             then zeros (S f + 1 - String.length m) ++ m else m).
  assert (Hk : S f + 1 <= String.length m').
  { subst m'. destruct (Nat.leb_spec (String.length m) (S f)).
    - rewrite length_append, length_zeros. lia.
    - lia. }
  eexists _, _. split; [reflexivity|].
  split; rewrite length_substring; lia.
Qed.

(** A number of magnitude below 10^21 is rendered by [toFixed] with an
    optional sign, an integer part, a point and exactly [f] fraction
    characters. *)
Lemma toFixed_shape (x : number) (f : nat) :
  PrimFloat.ltb (PrimFloat.abs x) 1e21 = true ->
  exists sign ip fp,
    toFixed Number_toString x (S f) = sign ++ ip ++ "." ++ fp
    /\ (sign = "" \/ sign = "-")
    /\ 0 < String.length ip /\ String.length fp = S f.
Proof.
  intros Hlt. unfold toFixed.
  pose proof (SFltb_not_SFleb (Prim2SF (PrimFloat.abs x)) (Prim2SF 1e21)) as Hle.
  rewrite <- ltb_spec, <- leb_spec in Hle. specialize (Hle Hlt).
  rewrite ltb_spec, abs_spec in Hlt.
  destruct (Prim2SF x) as [s|s| |s m e] eqn:Hx.
  - destruct (fixed_digits_shape 0 f) as (ip & fp & E & Hi & Hf).
    exists "", ip, fp. rewrite E. auto.
  - cbn in Hlt. vm_compute in Hlt. discriminate.
  - cbn in Hlt. discriminate.
  - rewrite Hle.
    destruct (fixed_digits_shape (nearest_scaled m e (S f)) f)
      as (ip & fp & E & Hi & Hf).
    exists (if s then "-" else ""), ip, fp. rewrite E.
    destruct s; auto.
Qed.

(* =================================================================== *)
(** ** Formatting helpers *)
(* =================================================================== *)

(** C5: [formatBootstrap] yields the placeholder for every input that is
    at most zero, in particular for 0 and -5; for a positive input it
    divides by 10e8 and renders the quotient with [toFixed(3)], which for
    a quotient below 10^21 is an integer part, a point and exactly three
    further characters; [formatBootstrap(3_000_000_000)] is ["3.000"]. *)
Theorem formatBootstrap_placeholder_or_seconds :
  formatBootstrap 0%float = "???"
  /\ formatBootstrap (-5)%float = "???"
  /\ formatBootstrap 3000000000%float = "3.000"
  /\ (forall v, PrimFloat.leb v 0%float = true -> formatBootstrap v = "???")
  /\ (forall v, num_gt v 0%float = true ->
        formatBootstrap v = toFixed Number_toString (v / 10e8)%float 3)
  /\ (forall v, num_gt v 0%float = true ->
        PrimFloat.ltb (PrimFloat.abs (v / 10e8)%float) 1e21 = true ->
        exists sign ip fp,
          formatBootstrap v = sign ++ ip ++ "." ++ fp
          /\ (sign = "" \/ sign = "-")
          /\ 0 < String.length ip /\ String.length fp = 3).
Proof.
  split; [vm_compute; reflexivity|].
  split; [vm_compute; reflexivity|].
  split; [vm_compute; reflexivity|].
  repeat split.
  - intros v Hle. unfold formatBootstrap. now rewrite (gt_zero_of_le v Hle).
  - intros v Hgt. unfold formatBootstrap. now rewrite Hgt.
  - intros v Hgt Hlt. unfold formatBootstrap. rewrite Hgt.
    now apply toFixed_shape.
Qed.

(* =================================================================== *)
(** ** The active tab *)
(* =================================================================== *)

Lemma activeTab_fallback (st : PageState) :
  tab st = Tab_value ArtifactSize -> artifactSizeAvailable st = false ->
  activeTab st = Tab_value CompileTime.
Proof. intros Ht Ha. unfold activeTab. rewrite Ht, Ha. reflexivity. Qed.

Lemma activeTab_available (st : PageState) :
  artifactSizeAvailable st = true -> activeTab st = tab st.
Proof.
  intros Ha. unfold activeTab. rewrite Ha.
  now rewrite andb_false_r.
Qed.

(** C10: a stored tab other than [Tab.ArtifactSize] is the active tab,
    whatever the data; where the active tab differs from the stored one,
    the stored one is [Tab.ArtifactSize], artifact sizes are unavailable
    and the active tab is [Tab.CompileTime]. *)
Theorem activeTab_overrides_only_artifact_size (st : PageState) :
  (tab st <> Tab_value ArtifactSize -> activeTab st = tab st)
  /\ (activeTab st <> tab st ->
      tab st = Tab_value ArtifactSize
      /\ artifactSizeAvailable st = false
      /\ activeTab st = Tab_value CompileTime).
Proof.
  unfold activeTab, strict_eq.
  destruct (bool_decide_reflect (tab st = Tab_value ArtifactSize)) as [E|N];
    destruct (artifactSizeAvailable st); cbn; split; intros H;
    try reflexivity; try contradiction; auto.
Qed.

(** C2: at [?tab=artifact-size], with a response whose only component
    has size zero, the active tab is [Tab.ArtifactSize] while the tab
    strip shows the other three tabs only. *)
Theorem activeTab_hidden_with_zero_sizes (i : BenchmarkInfo) :
  exists p,
    run {[ "tab" := "artifact-size" ]}
        [ CompareDataArrived zero_size_response; BenchmarkInfoArrived i ]
    = Normal p
    /\ tab (state p) = Tab_value ArtifactSize
    /\ artifactSizeAvailable (state p) = true
    /\ activeTab (state p) = Tab_value ArtifactSize
    /\ shown_tabs p = [ CompileTime; Runtime; Bootstrap ].
Proof. eexists. split; [reflexivity|]. repeat split; vm_compute; reflexivity. Qed.

(* =================================================================== *)
(** ** Tab descriptors *)
(* =================================================================== *)

Ltac tabs_with_data Hd :=
  unfold tabs, bootstrapA, bootstrapB, totalSizeA, totalSizeB;
  rewrite Hd; cbn [deref mbind mret completion_bind completion_ret].

Lemma reduce_sum_nil : reduce_sum [] = 0%float.
Proof. reflexivity. Qed.

(** A positive total needs at least one component. *)
Lemma positive_total_nonempty (cs : list (string * number)) :
  num_gt (reduce_sum (Object_values cs)) 0%float = true -> cs <> [].
Proof. intros H ->. vm_compute in H. discriminate. Qed.

Lemma reduce_sum_snoc (xs : list number) (x : number) :
  reduce_sum (xs ++ [ x ]) = (reduce_sum xs + x)%float.
Proof. unfold reduce_sum. now rewrite fold_left_app. Qed.

(** [reduce_sum] computes the sum. *)
Lemma sums_to_reduce_sum (xs : list number) : sums_to xs (reduce_sum xs).
Proof.
  induction xs as [|x xs IH] using rev_ind; [constructor|].
  rewrite reduce_sum_snoc. now constructor.
Qed.

(** A sequence has one sum. *)
Lemma sums_to_unique (xs : list number) (s : number) :
  sums_to xs s -> s = reduce_sum xs.
Proof.
  induction 1 as [|xs x s _ IH]; [reflexivity|].
  now rewrite reduce_sum_snoc, IH.
Qed.

(** C3: once the data is loaded, the artifact-size descriptor is
    visible exactly when the sum of the component sizes of artifact [a] is
    greater than zero or the sum of those of artifact [b] is; a sum greater
    than zero comes from a non-empty mapping.  The sums are those of the
    values of the two mappings, added in enumeration order. *)
Theorem artifact_size_tab_visibility
    (st : PageState) (d : CompareResponse) (tA tB : number) :
  data st = Some d ->
  sums_to (component_sizes (a d)).*2 tA ->
  sums_to (component_sizes (b d)).*2 tB ->
  exists ts t,
    tabs st = Normal ts
    /\ List.filter (fun t => bool_decide (id t = ArtifactSize)) ts = [ t ]
    /\ (isVisible t = true <->
        PrimFloat.ltb 0%float tA = true \/ PrimFloat.ltb 0%float tB = true)
    /\ (isVisible t = true <->
        (component_sizes (a d) <> [] /\ PrimFloat.ltb 0%float tA = true)
        \/ (component_sizes (b d) <> [] /\ PrimFloat.ltb 0%float tB = true)).
Proof.
  intros Hd HA HB.
  apply sums_to_unique in HA, HB. subst tA tB.
  tabs_with_data Hd.
  eexists _, _. split; [reflexivity|]. split; [reflexivity|].
  cbn [isVisible]. unfold sizesAvailable, num_gt, Object_values.
  rewrite orb_true_iff. split; [reflexivity|].
  split.
  - intros [H|H]; [left|right]; (split; [|exact H]);
      now apply positive_total_nonempty.
  - intros [[_ H]|[_ H]]; [left|right]; exact H.
Qed.

(** C4: building the tab descriptors throws a [TypeError] (reading [a]
    of [null]) whenever [data] is still [null], and succeeds whenever the
    data is loaded; so the setup throws when the benchmark information
    arrives before the comparison data, and completes when the
    comparison data arrives first. *)
Theorem tabs_total_only_with_data :
  (forall st, data st = None -> tabs st = TypeError "a")
  /\ (forall st d, data st = Some d ->
        exists ts, tabs st = Normal ts /\ length ts = 4)
  /\ (forall urlParams i evs,
        run urlParams (BenchmarkInfoArrived i :: evs) = TypeError "a")
  /\ (forall urlParams response i,
        exists p,
          run urlParams
              [ CompareDataArrived response; BenchmarkInfoArrived i ]
          = Normal p
          /\ data (state p) = Some response
          /\ is_Some (tab_descriptors p)).
Proof.
  split; [|split; [|split]].
  - intros st Hd. unfold tabs, bootstrapA. rewrite Hd. reflexivity.
  - intros st d Hd. tabs_with_data Hd. eexists. split; reflexivity.
  - intros urlParams i evs. reflexivity.
  - intros urlParams response i. unfold run.
    cbn [resume_all resume mbind mret completion_bind completion_ret state].
    set (st := loadCompareData_resumed response (setup urlParams)).
    assert (Hd : data st = Some response) by reflexivity.
    tabs_with_data Hd.
    eexists. split; [reflexivity|]. split; [exact Hd|]. cbn. eauto.
Qed.

(** C8: once the data is loaded, the summary of the bootstrap tab has,
    when both bootstrap totals are positive (distinct or not), exactly one
    element child, the delta indicator, holding the difference in seconds
    and the percent change; when both totals are zero, the summary is the
    text ["??? -> ???"] and has no element child. *)
Theorem bootstrap_tab_summary (st : PageState) (d : CompareResponse) :
  data st = Some d ->
  let bA := bootstrap_total (a d) in
  let bB := bootstrap_total (b d) in
  exists ts t,
    tabs st = Normal ts
    /\ List.filter (fun t => bool_decide (id t = Bootstrap)) ts = [ t ]
    /\ (num_gt bA 0%float = true -> num_gt bB 0%float = true ->
        exists delta,
          List.filter is_element (children_of (summary t)) = [ delta ]
          /\ delta =
               VElem "div" (Some (diffClass (bB - bA)%float))
                 [ VText (toFixed Number_toString
                            ((bB - bA) / 10e8)%float 1);
                   VText "s (";
                   VText (toFixed Number_toString
                            (((bB - bA) / bA) * 100)%float 3);
                   VText "%)" ]
          /\ 5 <= String.length (text_content delta))
    /\ (PrimFloat.eqb bA 0%float = true ->
        PrimFloat.eqb bB 0%float = true ->
        summary t =
          VElem "div" None
            [ VText "???"; VText " "; VText "->"; VText " ";
              VText "???"; VFalse ]
        /\ List.filter is_element (children_of (summary t)) = []
        /\ text_content (summary t) = "??? -> ???").
Proof.
  intros Hd bA bB. tabs_with_data Hd.
  eexists _, _. split; [reflexivity|]. split; [reflexivity|].
  cbn [summary]. fold bA bB. unfold bootstrap_summary, bootstrapValid.
  split.
  - intros HA HB. rewrite HA, HB. cbn [andb children_of].
    eexists. split; [reflexivity|]. split; [reflexivity|].
    cbn [text_content]. rewrite !length_append. cbn [String.length]. lia.
  - intros HA HB.
    unfold formatBootstrap.
    rewrite (gt_zero_of_eq bA HA), (gt_zero_of_eq bB HB).
    cbn [andb]. repeat split.
Qed.

(* =================================================================== *)
(** ** URL parameters *)
(* =================================================================== *)

Lemma loadTabFromUrl_token (urlParams : gmap string string) (t : Tab) :
  urlParams !! "tab" = Some (Tab_token t) ->
  loadTabFromUrl urlParams = Tab_value t.
Proof. intros H. unfold loadTabFromUrl. rewrite H. now destruct t. Qed.

Lemma loadTabFromUrl_absent (urlParams : gmap string string) :
  urlParams !! "tab" = None -> loadTabFromUrl urlParams = JsNull.
Proof. intros H. unfold loadTabFromUrl. rewrite H. reflexivity. Qed.

Lemma loadTabFromUrl_empty (urlParams : gmap string string) :
  urlParams !! "tab" = Some "" -> loadTabFromUrl urlParams = JsNull.
Proof. intros H. unfold loadTabFromUrl. rewrite H. reflexivity. Qed.

(** A string that is neither a token nor the name of a member of
    [Object.prototype] selects no tab. *)
Lemma loadTabFromUrl_unknown (urlParams : gmap string string) (s : string) :
  urlParams !! "tab" = Some s ->
  (forall t, s <> Tab_token t) ->
  s ∉ Object_prototype_keys ->
  loadTabFromUrl urlParams = JsNull.
Proof.
  intros H Htok Hproto. unfold loadTabFromUrl, Get. rewrite H.
  change (default "" (Some s)) with s.
  pose proof (Htok CompileTime). pose proof (Htok Runtime).
  pose proof (Htok Bootstrap). pose proof (Htok ArtifactSize).
  cbn [Tab_token] in *.
  rewrite !lookup_insert_ne, lookup_singleton_ne by congruence.
  unfold Object_prototype_get. now rewrite bool_decide_eq_false_2.
Qed.

(** The name of a member of [Object.prototype] yields that member. *)
Lemma loadTabFromUrl_inherited (urlParams : gmap string string) (s : string) :
  urlParams !! "tab" = Some s ->
  s ∈ Object_prototype_keys ->
  loadTabFromUrl urlParams = JsIntrinsic ("Object.prototype." ++ s).
Proof.
  intros H Hproto. unfold loadTabFromUrl, Get. rewrite H.
  change (default "" (Some s)) with s.
  assert (Hne : forall t, Tab_token t <> s).
  { intros t <-. revert Hproto. clear.
    destruct t; vm_compute; intros Hin;
      repeat (apply elem_of_cons in Hin as [Hin|Hin]; [discriminate|]);
      now apply elem_of_nil in Hin. }
  pose proof (Hne CompileTime). pose proof (Hne Runtime).
  pose proof (Hne Bootstrap). pose proof (Hne ArtifactSize).
  cbn [Tab_token] in *.
  rewrite !lookup_insert_ne, lookup_singleton_ne by congruence.
  unfold Object_prototype_get. now rewrite bool_decide_eq_true_2.
Qed.

(** C1: at [?tab=constructor] the lookup in the token table finds the
    inherited [Object.prototype.constructor]: [loadTabFromUrl] returns
    that function, which is neither [null] nor a tab, and it becomes the
    initial tab. *)
Theorem loadTabFromUrl_constructor :
  loadTabFromUrl {[ "tab" := "constructor" ]}
  = JsIntrinsic "Object.prototype.constructor"
  /\ loadTabFromUrl {[ "tab" := "constructor" ]} <> JsNull
  /\ (forall t, loadTabFromUrl {[ "tab" := "constructor" ]} <> Tab_value t)
  /\ tab (setup {[ "tab" := "constructor" ]})
     = JsIntrinsic "Object.prototype.constructor".
Proof.
  assert (E : loadTabFromUrl {[ "tab" := "constructor" ]}
              = JsIntrinsic "Object.prototype.constructor")
    by (vm_compute; reflexivity).
  unfold setup, tab. rewrite E.
  split; [reflexivity|]. split; [discriminate|].
  split; [|reflexivity]. intros t. destruct t; discriminate.
Qed.

(** C6: [storeTabToUrl] hands to [changeUrl] the parameters it was
    given with [tab] set to the token of the new tab and every other key
    as it was, and that is the one call [changeTab] makes. *)
Theorem storeTabToUrl_sets_only_tab
    (urlParams : gmap string string) (newTab : Tab) :
  exists params,
    storeTabToUrl urlParams newTab = (params, [ ChangeUrl params ])
    /\ params !! "tab" = Some (Tab_token newTab)
    /\ (forall k, k <> "tab" -> params !! k = urlParams !! k)
    /\ (forall st, (changeTab urlParams newTab st).2 = [ ChangeUrl params ])
    /\ (forall st, tab (changeTab urlParams newTab st).1 = Tab_value newTab).
Proof.
  eexists. split; [reflexivity|]. split; [apply lookup_insert_eq|].
  split; [|split; reflexivity].
  intros k Hk. now apply lookup_insert_ne.
Qed.

(** C7: storing a tab into the parameters that an earlier store of the
    same tab produced gives the same parameters and hands the same
    parameters to [changeUrl]. *)
Theorem storeTabToUrl_idempotent
    (urlParams : gmap string string) (newTab : Tab) :
  storeTabToUrl (storeTabToUrl urlParams newTab).1 newTab
  = storeTabToUrl urlParams newTab.
Proof.
  unfold storeTabToUrl. cbn [fst]. now rewrite insert_insert_eq.
Qed.

(* =================================================================== *)
(** ** Further properties: the URL and the selected tab *)
(* =================================================================== *)

Lemma Tab_token_inj (t t' : Tab) : Tab_token t = Tab_token t' -> t = t'.
Proof. destruct t, t'; intros H; (reflexivity || discriminate H). Qed.

Lemma Tab_value_inj (t t' : Tab) : Tab_value t = Tab_value t' -> t = t'.
Proof. intros H. apply Tab_token_inj. now injection H. Qed.

Lemma Tab_token_not_inherited (t : Tab) :
  Tab_token t ∉ Object_prototype_keys.
Proof.
  intros Hin. destruct t; vm_compute in Hin;
    repeat (apply elem_of_cons in Hin as [Hin|Hin]; [discriminate|]);
    now apply elem_of_nil in Hin.
Qed.

Lemma Tab_token_decision (s : string) :
  (exists t, s = Tab_token t) \/ (forall t, s <> Tab_token t).
Proof.
  destruct (decide (s = Tab_token CompileTime)); [left; eauto|].
  destruct (decide (s = Tab_token Runtime)); [left; eauto|].
  destruct (decide (s = Tab_token Bootstrap)); [left; eauto|].
  destruct (decide (s = Tab_token ArtifactSize)); [left; eauto|].
  right. intros t. now destruct t.
Qed.

(** X1: the tab stored into the URL parameters is the tab read back from
    them, whatever the parameters held before; so a page set up from the
    parameters that [changeTab] hands to [changeUrl] starts on the tab that
    was changed to. *)
Theorem storeTabToUrl_loadTabFromUrl
    (urlParams : gmap string string) (t : Tab) :
  loadTabFromUrl (storeTabToUrl urlParams t).1 = Tab_value t
  /\ (forall st, exists params,
        (changeTab urlParams t st).2 = [ ChangeUrl params ]
        /\ tab (setup params) = tab (changeTab urlParams t st).1).
Proof.
  assert (E : loadTabFromUrl (storeTabToUrl urlParams t).1 = Tab_value t).
  { apply loadTabFromUrl_token. cbn [storeTabToUrl fst].
    apply lookup_insert_eq. }
  split; [exact E|].
  intros st. eexists. split; [reflexivity|].
  cbn [setup changeTab fst tab]. cbn [storeTabToUrl fst] in E.
  unfold initialTab_of. rewrite E. reflexivity.
Qed.

(** X2: [loadTabFromUrl] returns a tab exactly when the [tab] parameter is
    that tab's token, and otherwise returns [null] or, for the name of a
    member of [Object.prototype], that member. *)
Theorem loadTabFromUrl_decodes_tokens (urlParams : gmap string string) :
  (forall t, loadTabFromUrl urlParams = Tab_value t
             <-> urlParams !! "tab" = Some (Tab_token t))
  /\ ((exists t, loadTabFromUrl urlParams = Tab_value t)
      \/ loadTabFromUrl urlParams = JsNull
      \/ (exists k, k ∈ Object_prototype_keys
                    /\ urlParams !! "tab" = Some k
                    /\ loadTabFromUrl urlParams
                       = JsIntrinsic ("Object.prototype." ++ k))).
Proof.
  assert (Hcases :
    (exists t, urlParams !! "tab" = Some (Tab_token t)
               /\ loadTabFromUrl urlParams = Tab_value t)
    \/ (loadTabFromUrl urlParams = JsNull
        /\ forall t, urlParams !! "tab" <> Some (Tab_token t))
    \/ (exists k, k ∈ Object_prototype_keys
                  /\ urlParams !! "tab" = Some k
                  /\ loadTabFromUrl urlParams
                     = JsIntrinsic ("Object.prototype." ++ k))).
  { destruct (urlParams !! "tab") as [s|] eqn:Hs.
    - destruct (Tab_token_decision s) as [[t ->]|Hnot].
      + left. exists t. split; [reflexivity|]. now apply loadTabFromUrl_token.
      + destruct (decide (s ∈ Object_prototype_keys)) as [Hin|Hout].
        * right. right. exists s. split; [exact Hin|].
          split; [reflexivity|]. now apply loadTabFromUrl_inherited.
        * right. left. split.
          -- now apply (loadTabFromUrl_unknown urlParams s Hs).
          -- intros t [= ->]. now apply (Hnot t).
    - right. left. split; [now apply loadTabFromUrl_absent | discriminate]. }
  split.
  - intros t. split; [|apply loadTabFromUrl_token].
    intros Ht.
    destruct Hcases as [(t' & Hs & Hv)|[[Hn _]|(k & _ & _ & Hv)]];
      rewrite Ht in *; try discriminate.
    apply Tab_value_inj in Hv. now subst.
  - destruct Hcases as [(t & _ & Hv)|[[Hn _]|Hk]]; eauto.
Qed.


(* =================================================================== *)
(** ** Further properties: descriptors, the strip and the template *)
(* =================================================================== *)

Lemma strict_eq_Tab_value (t t' : Tab) :
  strict_eq (Tab_value t) (Tab_value t') = bool_decide (t = t').
Proof. destruct t, t'; vm_compute; reflexivity. Qed.

Lemma activeTab_cases (st : PageState) :
  activeTab st = tab st
  \/ (tab st = Tab_value ArtifactSize
      /\ artifactSizeAvailable st = false
      /\ activeTab st = Tab_value CompileTime).
Proof.
  unfold activeTab, strict_eq.
  destruct (bool_decide_reflect (tab st = Tab_value ArtifactSize)) as [E|N];
    destruct (artifactSizeAvailable st); cbn; auto.
Qed.

Lemma tabs_build (st : PageState) (d : CompareResponse) :
  data st = Some d ->
  exists t1 t2 t3 t4,
    tabs st = Normal [ t1; t2; t3; t4 ]
    /\ (id t1 = CompileTime /\ id t2 = Runtime
        /\ id t3 = Bootstrap /\ id t4 = ArtifactSize)
    /\ (selected t1 = strict_eq (activeTab st) (Tab_value CompileTime)
        /\ selected t2 = strict_eq (activeTab st) (Tab_value Runtime)
        /\ selected t3 = strict_eq (activeTab st) (Tab_value Bootstrap)
        /\ selected t4 = strict_eq (activeTab st) (Tab_value ArtifactSize))
    /\ (isVisible t1 = true /\ isVisible t2 = true /\ isVisible t3 = true
        /\ isVisible t4
           = sizesAvailable
               (reduce_sum (Object_values (component_sizes (a d))))
               (reduce_sum (Object_values (component_sizes (b d)))))
    /\ (summary t1 = VTabSummaryTable (compileSummary st)
        /\ summary t2 = VTabSummaryTable (runtimeSummary st)
        /\ summary t3 = bootstrap_summary (bootstrap_total (a d))
                          (bootstrap_total (b d))
        /\ summary t4 = artifact_size_summary
                          (reduce_sum (Object_values (component_sizes (a d))))
                          (reduce_sum (Object_values (component_sizes (b d))))).
Proof.
  intros Hd. tabs_with_data Hd.
  eexists _, _, _, _. split; [reflexivity|]. repeat split.
Qed.

Lemma tabs_need_data (st : PageState) (ts : list TabDescriptor) :
  tabs st = Normal ts -> exists d, data st = Some d.
Proof.
  intros H. destruct (data st) as [d|] eqn:Hd; [eauto|].
  unfold tabs, bootstrapA in H. rewrite Hd in H. discriminate H.
Qed.

Lemma sizesAvailable_artifactSizeAvailable
    (st : PageState) (d : CompareResponse) :
  data st = Some d ->
  sizesAvailable (reduce_sum (Object_values (component_sizes (a d))))
                 (reduce_sum (Object_values (component_sizes (b d)))) = true ->
  artifactSizeAvailable st = true.
Proof.
  intros Hd Hs. unfold artifactSizeAvailable. rewrite Hd.
  unfold sizesAvailable in Hs. apply orb_true_iff in Hs.
  apply orb_true_iff.
  destruct Hs as [H|H]; [left|right];
    apply positive_total_nonempty in H; apply Nat.ltb_lt;
    unfold Object_keys; rewrite length_fmap;
    (destruct (component_sizes _); [contradiction|cbn; lia]).
Qed.

(** X4: whenever the artifact-size descriptor is visible, artifact sizes
    count as available for the page, so with the artifact-size tab stored
    the active tab is the artifact-size tab and not the fallback. *)
Theorem visible_artifact_tab_is_available
    (st : PageState) (ts : list TabDescriptor) (t : TabDescriptor) :
  tabs st = Normal ts -> t ∈ ts -> id t = ArtifactSize ->
  isVisible t = true ->
  artifactSizeAvailable st = true
  /\ (tab st = Tab_value ArtifactSize ->
      activeTab st = Tab_value ArtifactSize).
Proof.
  intros Hts Hin Hid Hvis.
  destruct (tabs_need_data st ts Hts) as [d Hd].
  destruct (tabs_build st d Hd)
    as (t1 & t2 & t3 & t4 & E & (I1 & I2 & I3 & I4) & _ & (_ & _ & _ & V4) & _).
  rewrite E in Hts. injection Hts as <-.
  assert (Ht : t = t4).
  { repeat (apply elem_of_cons in Hin as [->|Hin]); try congruence.
    now apply elem_of_nil in Hin. }
  subst t. rewrite V4 in Hvis.
  pose proof (sizesAvailable_artifactSizeAvailable st d Hd Hvis) as Ha.
  split; [exact Ha|]. intros Htab.
  rewrite (activeTab_available st Ha). exact Htab.
Qed.

Lemma activeTabs_ids
    (st : PageState) (d : CompareResponse) (initial : option value) :
  data st = Some d ->
  exists ts,
    tabs st = Normal ts
    /\ id <$> Tabs.activeTabs {| Tabs.initialTab := initial; Tabs.tabs := ts |}
       = ([ CompileTime; Runtime; Bootstrap ]
          ++ v_if (sizesAvailable
                     (reduce_sum (Object_values (component_sizes (a d))))
                     (reduce_sum (Object_values (component_sizes (b d)))))
                  ArtifactSize)%list.
Proof.
  intros Hd.
  destruct (tabs_build st d Hd)
    as (t1 & t2 & t3 & t4 & E & (I1 & I2 & I3 & I4) & _
        & (V1 & V2 & V3 & V4) & _).
  exists [ t1; t2; t3; t4 ]. split; [exact E|].
  unfold Tabs.activeTabs. cbn [Tabs.tabs List.filter].
  rewrite V1, V2, V3, V4.
  destruct (sizesAvailable _ _); cbn; congruence.
Qed.


Lemma shown_artifact_tab_visible
    (t1 t2 t3 t4 y : TabDescriptor) :
  id t1 = CompileTime -> id t2 = Runtime -> id t3 = Bootstrap ->
  id y = ArtifactSize ->
  y ∈ List.filter isVisible [ t1; t2; t3; t4 ] ->
  y = t4 /\ isVisible t4 = true.
Proof.
  intros I1 I2 I3 Iy Hin.
  apply list_elem_of_In, filter_In in Hin as [Hin Hvis].
  cbn [In] in Hin.
  destruct Hin as [<-|[<-|[<-|[<-|[]]]]]; try congruence. auto.
Qed.

(** X7: a click on a tab that the strip shows makes that tab the strip's
    selection, the stored tab and the active tab of the page (the fallback
    does not apply), leaves the data alone, and calls [changeUrl] once, with
    the current parameters and [tab] set to the token of the tab. *)
Theorem click_on_shown_tab
    (st : PageState) (d : CompareResponse) (ts : list TabDescriptor)
    (initial : option value) (strip : Tabs.State)
    (current : gmap string string) (t : Tab) :
  data st = Some d ->
  tabs st = Normal ts ->
  t ∈ id <$> Tabs.activeTabs {| Tabs.initialTab := initial; Tabs.tabs := ts |} ->
  exists strip' st',
    click t current strip st
    = (strip', st', [ ChangeUrl (<["tab" := Tab_token t]> current) ])
    /\ Tabs.activeTab strip' = Tab_value t
    /\ tab st' = Tab_value t
    /\ activeTab st' = Tab_value t
    /\ data st' = Some d.
Proof.
  intros Hd Hts Hin.
  eexists _, _. split; [reflexivity|]. split; [reflexivity|].
  split; [reflexivity|]. split; [|exact Hd].
  destruct (decide (t = ArtifactSize)) as [->|Hne].
  - apply activeTab_available.
    destruct (tabs_build st d Hd)
      as (t1 & t2 & t3 & t4 & E & (I1 & I2 & I3 & I4) & _
          & (_ & _ & _ & V4) & _).
    rewrite E in Hts. injection Hts as <-.
    apply list_elem_of_fmap in Hin as (y & Hy & Hin).
    unfold Tabs.activeTabs in Hin. cbn [Tabs.tabs] in Hin.
    destruct (shown_artifact_tab_visible t1 t2 t3 t4 y I1 I2 I3
                (eq_sym Hy) Hin) as [-> Hvis].
    rewrite V4 in Hvis.
    pose proof (sizesAvailable_artifactSizeAvailable st d Hd Hvis) as Ha.
    unfold artifactSizeAvailable in *. cbn [data]. exact Ha.
  - unfold activeTab. cbn [tab]. rewrite strict_eq_Tab_value.
    rewrite bool_decide_eq_false_2 by exact Hne. reflexivity.
Qed.


Lemma shown_tab_becomes_active
    (st : PageState) (d : CompareResponse) (ts : list TabDescriptor)
    (initial : option value) (t : Tab) (current : gmap string string) :
  data st = Some d ->
  tabs st = Normal ts ->
  t ∈ id <$> Tabs.activeTabs {| Tabs.initialTab := initial; Tabs.tabs := ts |} ->
  activeTab (changeTab current t st).1 = Tab_value t
  /\ data (changeTab current t st).1 = data st.
Proof.
  intros Hd Hts Hin. split; [|reflexivity].
  destruct (decide (t = ArtifactSize)) as [->|Hne].
  - apply activeTab_available.
    destruct (tabs_build st d Hd)
      as (t1 & t2 & t3 & t4 & E & (I1 & I2 & I3 & I4) & _
          & (_ & _ & _ & V4) & _).
    rewrite E in Hts. injection Hts as <-.
    apply list_elem_of_fmap in Hin as (y & Hy & Hin).
    unfold Tabs.activeTabs in Hin. cbn [Tabs.tabs] in Hin.
    destruct (shown_artifact_tab_visible t1 t2 t3 t4 y I1 I2 I3
                (eq_sym Hy) Hin) as [-> Hvis].
    rewrite V4 in Hvis.
    pose proof (sizesAvailable_artifactSizeAvailable st d Hd Hvis) as Ha.
    unfold artifactSizeAvailable in *. cbn [changeTab fst data]. exact Ha.
  - unfold activeTab. cbn [changeTab fst tab]. rewrite strict_eq_Tab_value.
    rewrite bool_decide_eq_false_2 by exact Hne. reflexivity.
Qed.

(** X6: the descriptors are those of the four tabs in the order
    compile-time, runtime, bootstrap, artifact-size, and they are built
    once: the one marked selected is the tab that was active when they were
    built (none is marked when the stored value was not a tab), and a click
    on a shown tab changes the active tab but not the descriptors the strip
    holds, which go on marking the tab that was active at the build. *)
Theorem tabs_selected_at_build
    (p : Page) (d : CompareResponse) (ts : list TabDescriptor) :
  data (state p) = Some d ->
  tabs (state p) = Normal ts ->
  tab_descriptors p = Some ts ->
  id <$> ts = [ CompileTime; Runtime; Bootstrap; ArtifactSize ]
  /\ (forall t, t ∈ ts ->
        selected t = strict_eq (activeTab (state p)) (Tab_value (id t)))
  /\ ((forall t0, tab (state p) <> Tab_value t0) ->
      List.filter selected ts = [])
  /\ (forall t0, activeTab (state p) = Tab_value t0 ->
        id <$> List.filter selected ts = [ t0 ]
        /\ forall t current strip,
             t ∈ id <$> Tabs.activeTabs
                          {| Tabs.initialTab := Some (initialTab p);
                             Tabs.tabs := ts |} ->
             exists strip' p' effects ts',
               Page_click t current strip p = (strip', p', effects)
               /\ activeTab (state p') = Tab_value t
               /\ tab_descriptors p' = Some ts'
               /\ id <$> List.filter selected ts' = [ t0 ]
               /\ shown_tabs p' = shown_tabs p).
Proof.
  intros Hd Hts Hheld.
  destruct (tabs_build (state p) d Hd)
    as (t1 & t2 & t3 & t4 & E & (I1 & I2 & I3 & I4)
        & (S1 & S2 & S3 & S4) & _).
  assert (Hbuilt := Hts). rewrite E in Hts. injection Hts as <-.
  assert (Hmarked : forall t0, activeTab (state p) = Tab_value t0 ->
            id <$> List.filter selected [ t1; t2; t3; t4 ] = [ t0 ]).
  { intros t0 H0. cbn [List.filter]. rewrite S1, S2, S3, S4, H0.
    rewrite !strict_eq_Tab_value.
    destruct t0;
      repeat first [ rewrite bool_decide_eq_true_2 by reflexivity
                   | rewrite bool_decide_eq_false_2 by discriminate ];
      cbn; congruence. }
  split; [cbn; congruence|]. split; [|split].
  - intros t Hin.
    repeat (apply elem_of_cons in Hin as [->|Hin]); try congruence.
    now apply elem_of_nil in Hin.
  - intros Hnot.
    assert (Ha : forall t0, activeTab (state p) <> Tab_value t0).
    { intros t0 H0. destruct (activeTab_cases (state p)) as [H|[H _]].
      - rewrite H in H0. now apply (Hnot t0).
      - now apply (Hnot ArtifactSize). }
    cbn [List.filter]. rewrite S1, S2, S3, S4. unfold strict_eq.
    rewrite !bool_decide_eq_false_2 by apply Ha. reflexivity.
  - intros t0 H0. split; [now apply Hmarked|].
    intros t current strip Hin.
    destruct (shown_tab_becomes_active (state p) d [ t1; t2; t3; t4 ]
                (Some (initialTab p)) t current Hd Hbuilt Hin) as [Hact Hdata].
    unfold Page_click, click, Tabs.changeTab.
    cbn [on_emitted app].
    eexists _, _, _, _. split; [reflexivity|].
    split; [exact Hact|]. split; [exact Hheld|].
    split; [now apply Hmarked|].
    unfold shown_tabs. cbn [state tab_descriptors initialTab data].
    rewrite Hheld, Hd. reflexivity.
Qed.

(* =================================================================== *)
(** ** Further properties: the setup over its two fetches *)
(* =================================================================== *)

Lemma resume_all_with_data (evs : list arrival) :
  forall p, is_Some (data (state p)) ->
            exists p', resume_all p evs = Normal p'.
Proof.
  induction evs as [|ev evs IH]; intros p [d Hd]; [cbn; eauto|].
  destruct ev as [response|i]; cbn [resume_all resume].
  - cbn [mbind mret completion_bind completion_ret]. apply IH. cbn. eauto.
  - tabs_with_data Hd. apply IH. cbn [state]. eauto.
Qed.

(** X9: the setup throws exactly when the benchmark information is the
    first fetch to resolve; when nothing has resolved yet or the comparison
    data resolved first, it does not throw, whatever resolves later. *)
Theorem run_throws_iff_info_first
    (urlParams : gmap string string) (evs : list arrival) :
  match evs with
  | BenchmarkInfoArrived _ :: _ => run urlParams evs = TypeError "a"
  | _ => exists p, run urlParams evs = Normal p
  end.
Proof.
  destruct evs as [|[response|i] evs]; [cbn; eauto| |reflexivity].
  unfold run. cbn [resume_all resume mbind mret completion_bind completion_ret].
  apply resume_all_with_data. cbn. eauto.
Qed.

Lemma resume_settled (urlParams : gmap string string) (p p' : Page)
    (ev : arrival) :
  settled urlParams p -> resume p ev = Normal p' -> settled urlParams p'.
Proof.
  intros (Htab & Hinit & Hdata & Hts) Hstep.
  destruct ev as [response|i]; cbn [resume] in Hstep.
  - injection Hstep as <-. unfold settled.
    cbn [state tab_descriptors initialTab loadCompareData_resumed tab data
         compileSummary runtimeSummary].
    split; [exact Htab|]. split; [exact Hinit|].
    split; [split; reflexivity|]. exact Hts.
  - destruct (data (state p)) as [d|] eqn:Hd.
    + destruct (tabs_build (state p) d Hd)
        as (t1 & t2 & t3 & t4 & E & _ & _ & _ & (M1 & M2 & M3 & M4)).
      rewrite E in Hstep.
      cbn [mbind mret completion_bind completion_ret] in Hstep.
      injection Hstep as <-. unfold settled. cbn [state tab_descriptors initialTab].
      rewrite Hd. destruct Hdata as [Hc Hr].
      split; [exact Htab|]. split; [exact Hinit|].
      split; [split; assumption|].
      intros ts' [= <-]. split; [reflexivity|].
      intros pc t Hin.
      repeat (apply elem_of_cons in Hin as [->|Hin]);
        [ rewrite M1, Hc | rewrite M2, Hr | rewrite M3 | rewrite M4 | ];
        try (cbn; eauto; fail).
      now apply elem_of_nil in Hin.
    + unfold tabs, bootstrapA in Hstep. rewrite Hd in Hstep.
      discriminate Hstep.
Qed.

Lemma resume_all_settled (urlParams : gmap string string)
    (evs : list arrival) :
  forall p p', settled urlParams p -> resume_all p evs = Normal p' ->
               settled urlParams p'.
Proof.
  induction evs as [|ev evs IH]; intros p p' Hp Hrun; cbn in Hrun.
  - now injection Hrun as <-.
  - destruct (resume p ev) as [q|e] eqn:Hq; [|discriminate Hrun].
    cbn in Hrun. eapply IH; [|exact Hrun].
    eapply resume_settled; eauto.
Qed.

Lemma Vue_ref_initialTab_of (urlParams : gmap string string) :
  urlParams !! "tab" <> Some "__proto__" ->
  Vue_ref (initialTab_of urlParams) = initialTab_of urlParams.
Proof.
  intros Hnot. unfold initialTab_of.
  destruct (urlParams !! "tab") as [s|] eqn:Hs.
  - destruct (Tab_token_decision s) as [[t ->]|Htok].
    + now rewrite (loadTabFromUrl_token urlParams t Hs).
    + destruct (decide (s ∈ Object_prototype_keys)) as [Hin|Hout].
      * rewrite (loadTabFromUrl_inherited urlParams s Hs Hin).
        cbn [nullish Vue_ref].
        rewrite bool_decide_eq_false_2; [reflexivity|].
        intros E. vm_compute in E. injection E as ->. now apply Hnot.
      * now rewrite (loadTabFromUrl_unknown urlParams s Hs Htok Hout).
  - now rewrite (loadTabFromUrl_absent urlParams Hs).
Qed.

(** X10: however the fetches resolved, if the setup did not throw then
    the constant [initialTab] is the value read from the URL (compile-time
    when it is [null]) and the stored tab is the ref made of it: the same
    value, except at [?tab=__proto__], where the ref holds the reactive
    proxy of [Object.prototype]; the summaries are those computed from the
    loaded data (and [null] before it is loaded); and descriptors exist
    only once the data is loaded: there are four, and each summary mounts
    without reading [null]. *)
Theorem run_settled
    (urlParams : gmap string string) (evs : list arrival) (p : Page) :
  run urlParams evs = Normal p ->
  initialTab p = nullish (loadTabFromUrl urlParams) (Tab_value CompileTime)
  /\ tab (state p) = Vue_ref (initialTab p)
  /\ (urlParams !! "tab" <> Some "__proto__" ->
      tab (state p) = initialTab p)
  /\ (urlParams !! "tab" = Some "__proto__" ->
      initialTab p = JsIntrinsic "Object.prototype.__proto__"
      /\ tab (state p) = JsIntrinsic "reactive(Object.prototype)")
  /\ (forall response, data (state p) = Some response ->
        compileSummary (state p) = Some (compileSummaryOf response)
        /\ runtimeSummary (state p) = Some (runtimeSummaryOf response))
  /\ (data (state p) = None ->
        compileSummary (state p) = None
        /\ runtimeSummary (state p) = None
        /\ tab_descriptors p = None)
  /\ (forall ts, tab_descriptors p = Some ts ->
        is_Some (data (state p))
        /\ length ts = 4
        /\ forall percentClass t, t ∈ ts ->
             exists n, mount_summary percentClass (summary t) = Normal n).
Proof.
  intros Hrun.
  assert (Hs : settled urlParams p).
  { eapply resume_all_settled; [|exact Hrun].
    unfold settled. cbn. repeat split; discriminate. }
  destruct Hs as (Hinit & Htab & Hdata & Hts).
  split; [exact Hinit|]. split; [exact Htab|].
  split.
  { intros Hnot. rewrite Htab, Hinit.
    now apply Vue_ref_initialTab_of. }
  split.
  { intros Hproto. rewrite Htab, Hinit.
    assert (Hin : "__proto__" ∈ Object_prototype_keys)
      by (vm_compute; repeat constructor).
    rewrite (loadTabFromUrl_inherited urlParams "__proto__" Hproto Hin).
    split; reflexivity. }
  destruct (data (state p)) as [d|] eqn:Hd.
  - split; [intros response [= <-]; exact Hdata|].
    split; [discriminate|].
    intros ts Hsome. split; [eauto|]. now apply Hts.
  - split; [discriminate|]. split; [intros _; exact Hdata|].
    intros ts Hsome. destruct Hdata as (_ & _ & Hnone). congruence.
Qed.

(* =================================================================== *)
(** ** Further properties: the tab summaries *)
(* =================================================================== *)


Lemma gt_zero_not_eq (v : number) :
  num_gt v 0%float = true -> PrimFloat.eqb v 0%float = false.
Proof.
  intros H. destruct (PrimFloat.eqb v 0%float) eqn:E; [|reflexivity].
  rewrite (gt_zero_of_eq v E) in H. discriminate H.
Qed.


Lemma positive_finite (v : number) :
  num_gt v 0%float = true -> PrimFloat.ltb v infinity = true ->
  exists m e, Prim2SF v = S754_finite false m e.
Proof.
  unfold num_gt. rewrite !ltb_spec, Prim2SF_zero.
  change (Prim2SF infinity) with (S754_infinity false).
  destruct (Prim2SF v) as [s|s| |s m e]; try destruct s; cbn;
    try discriminate; eauto.
Qed.

Lemma sub_self (v : number) (m : positive) (e : Z) :
  Prim2SF v = S754_finite false m e -> (v - v)%float = 0%float.
Proof.
  intros H. apply Prim2SF_inj. rewrite sub_spec, H, Prim2SF_zero.
  unfold SF64sub, SFsub. rewrite Z.sub_diag. reflexivity.
Qed.

Lemma zero_div_positive (v : number) (m : positive) (e : Z) :
  Prim2SF v = S754_finite false m e -> (0 / v)%float = 0%float.
Proof.
  intros H. apply Prim2SF_inj. rewrite div_spec, H, Prim2SF_zero.
  reflexivity.
Qed.

(** X12: when the two bootstrap totals are the same positive finite
    number, the bootstrap summary still holds a delta element, and it reads
    ["0.0s (0.000%)"]. *)
Theorem bootstrap_summary_equal_totals (bA : number) :
  num_gt bA 0%float = true ->
  PrimFloat.ltb bA infinity = true ->
  List.filter is_element (children_of (bootstrap_summary bA bA))
  = [ VElem "div" (Some (diffClass 0%float))
        [ VText "0.0"; VText "s ("; VText "0.000"; VText "%)" ] ].
Proof.
  intros Hpos Hfin.
  destruct (positive_finite bA Hpos Hfin) as (m & e & Hm).
  unfold bootstrap_summary, bootstrapValid. rewrite Hpos.
  cbn [andb children_of List.filter is_element].
  rewrite (sub_self bA m e Hm), (zero_div_positive bA m e Hm).
  vm_compute. reflexivity.
Qed.


End ComparePage.

(* ===================================================================== *)
(** ** The summary table *)
(* ===================================================================== *)

Section SummaryTable.

Variable percentClass : number -> string.

Lemma table_view_not_empty_view (summary : SummaryGroup) :
  TabSummaryTable.table_view percentClass summary
  <> TabSummaryTable.empty_view.
Proof. discriminate. Qed.

(** C9: when [all.count] is greater than zero the summary table renders
    the table with the header cells Range and Mean and one row holding the
    range and the mean of the summary, and otherwise it renders the message
    No results; it renders the table only in the first case and the message
    only in the second, and what it renders depends on nothing but the
    count, the range and the average of the summary it is given. *)
Theorem TabSummaryTable_render_by_count (summary : SummaryGroup) :
  let table :=
    VElem "div" None
      [ VElem "div" (Some "table-wrapper")
          [ VElem "table" None
              [ VElem "thead" None
                  [ VElem "tr" None
                      [ VElem "th" None [ VText "Range" ];
                        VElem "th" None [ VText "Mean" ] ] ];
                VElem "thead" None
                  [ VElem "tr" None
                      [ VElem "td" None
                          [ VSummaryRange (range (all summary)) ];
                        VElem "td" None
                          [ VSummaryPercentValue
                              (percentClass (average (all summary)))
                              (average (all summary)) ] ] ] ] ] ] in
  let message :=
    VElem "div" None [ VElem "span" None [ VText "No results" ] ] in
  (TabSummaryTable.render percentClass summary = table
   <-> PrimFloat.ltb 0%float (count (all summary)) = true)
  /\ (TabSummaryTable.render percentClass summary = message
      <-> PrimFloat.ltb 0%float (count (all summary)) = false)
  /\ (forall summary',
        count (all summary') = count (all summary) ->
        range (all summary') = range (all summary) ->
        average (all summary') = average (all summary) ->
        TabSummaryTable.render percentClass summary'
        = TabSummaryTable.render percentClass summary).
Proof.
  intros table message.
  split; [|split].
  - unfold TabSummaryTable.render, num_gt.
    destruct (PrimFloat.ltb 0%float (count (all summary)));
      split; intros H; (reflexivity || discriminate H).
  - unfold TabSummaryTable.render, num_gt.
    destruct (PrimFloat.ltb 0%float (count (all summary)));
      split; intros H; (reflexivity || discriminate H).
  - intros [[c r v]] Hc Hr Hv. destruct summary as [[c' r' v']].
    cbn in Hc, Hr, Hv. now subst.
Qed.

End SummaryTable.

(* ===================================================================== *)
(** ** The theorems at sample inputs *)
(* ===================================================================== *)

Lemma formatBootstrap_placeholder_or_seconds_witness :
  num_gt 1500000000%float 0%float = true
  /\ formatBootstrap sample_text 1500000000%float = "1.500".
Proof.
  split; [reflexivity|].
  rewrite (proj1 (proj2 (proj2 (proj2 (proj2
             (formatBootstrap_placeholder_or_seconds sample_text)))))
             1500000000%float eq_refl).
  vm_compute. reflexivity.
Defined.

Lemma activeTab_overrides_only_artifact_size_witness :
  tab (loaded (fun _ => sample_summary) (fun _ => sample_summary)
         (@zero_size_response unit unit) Bootstrap)
  <> Tab_value ArtifactSize
  /\ activeTab (loaded (fun _ => sample_summary) (fun _ => sample_summary)
                  (@zero_size_response unit unit) Bootstrap)
     = Tab_value Bootstrap.
Proof.
  split; [vm_compute; discriminate|].
  rewrite (proj1 (activeTab_overrides_only_artifact_size
                    (loaded (fun _ => sample_summary) (fun _ => sample_summary)
                       (@zero_size_response unit unit) Bootstrap)));
    [vm_compute; reflexivity | vm_compute; discriminate].
Defined.

Lemma artifact_size_tab_visibility_witness :
  data (loaded (fun _ => sample_summary) (fun _ => sample_summary)
          (@two_component_response unit unit) ArtifactSize)
  = Some two_component_response
  /\ sums_to [ 0%float; 2048%float ] 2048%float
  /\ sums_to [] 0%float
  /\ exists ts t,
       tabs sample_text sample_text sample_text sample_change
         (loaded (fun _ => sample_summary) (fun _ => sample_summary)
            (@two_component_response unit unit) ArtifactSize)
       = Normal ts
       /\ List.filter (fun t => bool_decide (id t = ArtifactSize)) ts = [ t ]
       /\ isVisible t = true.
Proof.
  assert (HA : sums_to [ 0%float; 2048%float ] 2048%float)
    by exact (sums_to_reduce_sum [ 0%float; 2048%float ]).
  split; [reflexivity|]. split; [exact HA|]. split; [constructor|].
  destruct (artifact_size_tab_visibility
              sample_text sample_text sample_text sample_change
              (loaded (fun _ => sample_summary) (fun _ => sample_summary)
                 (@two_component_response unit unit) ArtifactSize)
              two_component_response 2048%float 0%float
              eq_refl HA sums_to_nil)
    as (ts & t & Hts & Hfilter & Hvisible & _).
  exists ts, t. split; [exact Hts|]. split; [exact Hfilter|].
  apply Hvisible. left. reflexivity.
Defined.

Lemma tabs_total_only_with_data_witness :
  data (@setup unit unit {[ "tab" := "bootstrap" ]}) = None
  /\ tabs sample_text sample_text sample_text sample_change
       (@setup unit unit {[ "tab" := "bootstrap" ]})
     = TypeError "a".
Proof.
  split; [reflexivity|].
  apply (proj1 (tabs_total_only_with_data
                  sample_text sample_text sample_text sample_change
                  (fun _ => sample_summary) (fun _ => sample_summary)
                  (BenchmarkInfo := unit))).
  reflexivity.
Defined.

Lemma bootstrap_tab_summary_witness :
  data (loaded (fun _ => sample_summary) (fun _ => sample_summary)
          (@sized_response unit unit) Bootstrap)
  = Some sized_response
  /\ num_gt 3000000000%float 0%float = true
  /\ num_gt 4500000000%float 0%float = true
  /\ exists ts t delta,
       tabs sample_text sample_text sample_text sample_change
         (loaded (fun _ => sample_summary) (fun _ => sample_summary)
            (@sized_response unit unit) Bootstrap)
       = Normal ts
       /\ List.filter (fun t => bool_decide (id t = Bootstrap)) ts = [ t ]
       /\ List.filter is_element (children_of (summary t)) = [ delta ]
       /\ 5 <= String.length (text_content delta).
Proof.
  split; [reflexivity|]. split; [reflexivity|]. split; [reflexivity|].
  destruct (bootstrap_tab_summary
              sample_text sample_text sample_text sample_change
              (loaded (fun _ => sample_summary) (fun _ => sample_summary)
                 (@sized_response unit unit) Bootstrap)
              sized_response eq_refl)
    as (ts & t & Hts & Hfilter & Hpositive & _).
  destruct (Hpositive eq_refl eq_refl) as (delta & Hdelta & _ & Hlen).
  exists ts, t, delta. auto.
Defined.

Lemma storeTabToUrl_sets_only_tab_witness :
  "start" <> "tab"
  /\ exists params,
       storeTabToUrl {[ "start" := "abc" ]} Runtime
       = (params, [ ChangeUrl params ])
       /\ params !! "tab" = Some "runtime"
       /\ params !! "start" = Some "abc".
Proof.
  split; [discriminate|].
  destruct (storeTabToUrl_sets_only_tab (CompileComparison := unit)
              (RuntimeComparison := unit) {[ "start" := "abc" ]} Runtime)
    as (params & Hstore & Htab & Hframe & _).
  exists params. split; [exact Hstore|]. split; [exact Htab|].
  rewrite (Hframe "start"); [reflexivity | discriminate].
Defined.

Lemma TabSummaryTable_render_by_count_witness :
  PrimFloat.ltb 0%float (count (all sample_summary)) = true
  /\ TabSummaryTable.render sample_text sample_summary
     = TabSummaryTable.table_view sample_text sample_summary.
Proof.
  split; [reflexivity|].
  exact (proj2 (proj1 (TabSummaryTable_render_by_count
                         sample_text sample_summary)) eq_refl).
Defined.

Lemma loadTabFromUrl_decodes_tokens_witness :
  ({[ "tab" := "runtime"; "start" := "abc" ]} : gmap string string) !! "tab"
  = Some (Tab_token Runtime)
  /\ loadTabFromUrl {[ "tab" := "runtime"; "start" := "abc" ]}
     = Tab_value Runtime.
Proof.
  split; [reflexivity|].
  apply (proj1 (loadTabFromUrl_decodes_tokens
                  {[ "tab" := "runtime"; "start" := "abc" ]})).
  reflexivity.
Defined.


Lemma visible_artifact_tab_is_available_witness :
  artifactSizeAvailable
    (loaded (fun _ => sample_summary) (fun _ => sample_summary)
       (@sized_response unit unit) ArtifactSize) = true
  /\ activeTab
       (loaded (fun _ => sample_summary) (fun _ => sample_summary)
          (@sized_response unit unit) ArtifactSize)
     = Tab_value ArtifactSize.
Proof.
  destruct (tabs_build sample_text sample_text sample_text sample_change
              (loaded (fun _ => sample_summary) (fun _ => sample_summary)
                 (@sized_response unit unit) ArtifactSize)
              sized_response eq_refl)
    as (t1 & t2 & t3 & t4 & E & (_ & _ & _ & I4) & _ & (_ & _ & _ & V4) & _).
  destruct (visible_artifact_tab_is_available
              sample_text sample_text sample_text sample_change
              _ [ t1; t2; t3; t4 ] t4 E)
    as [Havailable Hactive].
  - repeat constructor.
  - exact I4.
  - rewrite V4. vm_compute. reflexivity.
  - split; [exact Havailable|]. apply Hactive. vm_compute. reflexivity.
Defined.


Lemma tabs_selected_at_build_witness :
  exists p ts strip' p' effects ts',
    run sample_text sample_text sample_text sample_change
      (fun _ => sample_summary) (fun _ => sample_summary)
      {[ "tab" := "bootstrap" ]}
      [ CompareDataArrived (@sized_response unit unit);
        BenchmarkInfoArrived tt ]
    = Normal p
    /\ tab_descriptors p = Some ts
    /\ id <$> List.filter selected ts = [ Bootstrap ]
    /\ Page_click Runtime {[ "tab" := "bootstrap" ]}
         {| Tabs.activeTab := Tab_value Bootstrap |} p
       = (strip', p', effects)
    /\ activeTab (state p') = Tab_value Runtime
    /\ tab_descriptors p' = Some ts'
    /\ id <$> List.filter selected ts' = [ Bootstrap ].
Proof.
  assert (Hrun : exists p ts,
            run sample_text sample_text sample_text sample_change
              (fun _ => sample_summary) (fun _ => sample_summary)
              {[ "tab" := "bootstrap" ]}
              [ CompareDataArrived (@sized_response unit unit);
                BenchmarkInfoArrived tt ] = Normal p
            /\ data (state p) = Some sized_response
            /\ tabs sample_text sample_text sample_text sample_change
                 (state p) = Normal ts
            /\ tab_descriptors p = Some ts
            /\ activeTab (state p) = Tab_value Bootstrap)
    by (eexists _, _; repeat split; reflexivity).
  destruct Hrun as (p & ts & Hrun & Hd & Hts & Hheld & Hactive).
  destruct (tabs_selected_at_build
              sample_text sample_text sample_text sample_change
              p sized_response ts Hd Hts Hheld)
    as (Hids & _ & _ & Hbuild).
  destruct (Hbuild Bootstrap Hactive) as [Hmarked Hclick].
  destruct (Hclick Runtime {[ "tab" := "bootstrap" ]}
              {| Tabs.activeTab := Tab_value Bootstrap |})
    as (strip' & p' & effects & ts' & Hc & Ha & Hh & Hm & _).
  - destruct (activeTabs_ids sample_text sample_text sample_text
                sample_change (state p) sized_response
                (Some (initialTab p)) Hd) as (ts0 & Hts0 & Hshown).
    rewrite Hts in Hts0. injection Hts0 as <-.
    rewrite Hshown. repeat constructor.
  - exists p, ts, strip', p', effects, ts'. auto 10.
Defined.

Lemma click_on_shown_tab_witness :
  exists strip' st',
    click ArtifactSize {[ "start" := "abc" ]}
      {| Tabs.activeTab := Tab_value CompileTime |}
      (loaded (fun _ => sample_summary) (fun _ => sample_summary)
         (@sized_response unit unit) CompileTime)
    = (strip', st',
       [ ChangeUrl (<["tab" := "artifact-size"]> {[ "start" := "abc" ]}) ])
    /\ activeTab st' = Tab_value ArtifactSize.
Proof.
  destruct (activeTabs_ids sample_text sample_text sample_text sample_change
              (loaded (fun _ => sample_summary) (fun _ => sample_summary)
                 (@sized_response unit unit) CompileTime)
              sized_response None eq_refl)
    as (ts & Hts & Hids).
  destruct (click_on_shown_tab
              sample_text sample_text sample_text sample_change
              (loaded (fun _ => sample_summary) (fun _ => sample_summary)
                 (@sized_response unit unit) CompileTime)
              sized_response ts None
              {| Tabs.activeTab := Tab_value CompileTime |}
              {[ "start" := "abc" ]} ArtifactSize eq_refl Hts)
    as (strip' & st' & Hclick & _ & _ & Hactive & _).
  - rewrite Hids. vm_compute. repeat constructor.
  - exists strip', st'. split; [exact Hclick | exact Hactive].
Defined.


Lemma run_settled_witness :
  exists p,
    run sample_text sample_text sample_text sample_change
      (fun _ => sample_summary) (fun _ => sample_summary)
      {[ "tab" := "runtime" ]}
      [ CompareDataArrived (@sized_response unit unit);
        BenchmarkInfoArrived tt ]
    = Normal p
    /\ tab (state p) = Tab_value Runtime
    /\ compileSummary (state p) = Some sample_summary.
Proof.
  assert (Hnormal : exists p,
            run sample_text sample_text sample_text sample_change
              (fun _ => sample_summary) (fun _ => sample_summary)
              {[ "tab" := "runtime" ]}
              [ CompareDataArrived (@sized_response unit unit);
                BenchmarkInfoArrived tt ] = Normal p)
    by (eexists; reflexivity).
  destruct Hnormal as [p Hrun].
  destruct (run_settled
              sample_text sample_text sample_text sample_change
              (fun _ => sample_summary) (fun _ => sample_summary)
              _ _ p Hrun)
    as (Hinit & _ & Hsame & _ & Hsummaries & _).
  exists p. split; [exact Hrun|].
  split; [rewrite Hsame, Hinit; [reflexivity | discriminate]|].
  destruct (data (state p)) as [response|] eqn:Hd.
  - now destruct (Hsummaries response eq_refl).
  - exfalso. revert Hd. revert Hrun. vm_compute. intros [= <-]. discriminate.
Defined.


Lemma bootstrap_summary_equal_totals_witness :
  num_gt 3000000000%float 0%float = true
  /\ PrimFloat.ltb 3000000000%float infinity = true
  /\ List.filter is_element
       (children_of
          (bootstrap_summary sample_text sample_text
             3000000000%float 3000000000%float))
     = [ VElem "div" (Some (sample_text 0%float))
           [ VText "0.0"; VText "s ("; VText "0.000"; VText "%)" ] ].
Proof.
  split; [reflexivity|]. split; [reflexivity|].
  exact (bootstrap_summary_equal_totals sample_text sample_text
           3000000000%float eq_refl eq_refl).
Defined.

